(** * geodesk-rs bridge: result materialisation and result sets

    A shallow embedding of [src/bridge/geodesk_bridge.cpp] and
    [src/bridge/geodesk_bridge.h].

    The bridge owns three kinds of objects through [std::unique_ptr]:
    the [FeatureStore], the [FeatureResult] built by a query, and the
    [FeatureData] copies handed out by [FeatureResult::get].  They are
    modelled as cells of a heap (a finite map from addresses to objects),
    and every member function is a computation in a state-and-exception
    monad over that heap.  The wrapped GeoDesk library is not part of
    the repository; it appears only through the values its accessors
    return and the exceptions its ranges raise. *)

From Stdlib Require Import String Ascii ZArith List.
From Stdlib Require Import Floats.PrimFloat.
From stdpp Require Import base option list gmap strings.

Local Open Scope string_scope.

(** ** Exceptions *)

(** The classes of [std::exception] that the bridge tells apart:
    [std::runtime_error] and [std::out_of_range] are thrown by the bridge
    itself, any other class comes from the wrapped library. *)
Inductive exception_class : Type :=
| Std_exception
| Std_runtime_error
| Std_out_of_range.

Record exception : Type := Exn {
  class_of : exception_class;
  what : string
}.

(** ** The wrapped library (namespace [geodesk]) *)

(** A C++ range as the [for (x : range)] statement sees it: it ends,
    yields an element and goes on, or throws while being advanced. *)
Inductive range (A : Type) : Type :=
| r_end
| r_item (a : A) (rest : range A)
| r_throw (e : exception).

Arguments r_end {A}.
Arguments r_item {A} a rest.
Arguments r_throw {A} e.

(** The elements a range yields before it ends or throws. *)
Fixpoint range_items {A} (r : range A) : list A :=
  match r with
  | r_end => []
  | r_item a rest => a :: range_items rest
  | r_throw _ => []
  end.

(** The exception that cuts a range short, if any. *)
Fixpoint range_failure {A} (r : range A) : option exception :=
  match r with
  | r_end => None
  | r_item _ rest => range_failure rest
  | r_throw e => Some e
  end.

Fixpoint range_of_list {A} (l : list A) : range A :=
  match l with
  | [] => r_end
  | a :: l' => r_item a (range_of_list l')
  end.

Module Tag.
Record t : Type := mk { key : string; value : string }.
End Tag.

Module Node.
Record t : Type := mk { id : Z; lon : float; lat : float }.
End Node.

Module Feature.
(** Modelled from the spec: the [geodesk::Feature] class is missing
    from the sources; section 6 lists the capabilities the bridge
    needs: [id], type classification, [lon], [lat],
    [tag(key) -> optional<string>], [tags], [isWay] and [nodes].
    The lookup [feature[key]] is that optional string: [None] when the
    feature has no such tag. *)
Record t : Type := mk {
  id : Z;
  typeName : string;
  lon : float;
  lat : float;
  tag : string -> option string;
  tags : range Tag.t;
  isWay : bool;
  nodes : range Node.t
}.
End Feature.

(** [Box::ofWSEN(west, south, east, north)]: the arguments are kept as
    they are passed, in the order of the constructor's name. *)
Record Box : Type := ofWSEN {
  box_west : float;
  box_south : float;
  box_east : float;
  box_north : float
}.

(** [geodesk::Features]: the collection opened from a GOL file.
    [features(query)(box)] selects by a GOQL string and a box; a
    rejected query is a range that throws at once. *)
Record Features : Type := {
  select : string -> Box -> range Feature.t
}.

(** ** The bridge's data (namespace [geodesk_bridge]) *)

Record BoundingBox : Type := {
  west : float;
  south : float;
  east : float;
  north : float
}.

Module NodeData.
Record t : Type := mk { id : Z; lon : float; lat : float }.
End NodeData.

Module FeatureData.
(** Modelled from the spec: the struct is declared by the generated
    cxx header, which is missing; its fields are the ones [query]
    assigns, with the types section 3 gives them. *)
Record t : Type := mk {
  id : Z;
  type_name : string;
  lon : float;
  lat : float;
  name : string;
  tag_keys : list string;
  tag_values : list string;
  nodes : list NodeData.t
}.

(** [FeatureData data;] every scalar is assigned before it is read. *)
Definition init : t := mk 0%Z EmptyString 0%float 0%float EmptyString [] [] [].

Definition set_id (v : Z) (d : t) : t :=
  mk v (type_name d) (lon d) (lat d) (name d) (tag_keys d) (tag_values d) (nodes d).
Definition set_type_name (v : string) (d : t) : t :=
  mk (id d) v (lon d) (lat d) (name d) (tag_keys d) (tag_values d) (nodes d).
Definition set_lon (v : float) (d : t) : t :=
  mk (id d) (type_name d) v (lat d) (name d) (tag_keys d) (tag_values d) (nodes d).
Definition set_lat (v : float) (d : t) : t :=
  mk (id d) (type_name d) (lon d) v (name d) (tag_keys d) (tag_values d) (nodes d).
Definition set_name (v : string) (d : t) : t :=
  mk (id d) (type_name d) (lon d) (lat d) v (tag_keys d) (tag_values d) (nodes d).
Definition push_tag_key (v : string) (d : t) : t :=
  mk (id d) (type_name d) (lon d) (lat d) (name d) (tag_keys d ++ [v]) (tag_values d) (nodes d).
Definition push_tag_value (v : string) (d : t) : t :=
  mk (id d) (type_name d) (lon d) (lat d) (name d) (tag_keys d) (tag_values d ++ [v]) (nodes d).
Definition push_node (v : NodeData.t) (d : t) : t :=
  mk (id d) (type_name d) (lon d) (lat d) (name d) (tag_keys d) (tag_values d) (nodes d ++ [v]).
End FeatureData.

(** [class FeatureResult]: its only member is the vector [features]. *)
Record FeatureResult : Type := {
  features : list FeatureData.t
}.

(** ** The heap *)

(** The address of an object owned through a [std::unique_ptr]. *)
Definition ptr : Type := positive.

Inductive object : Type :=
| FeatureStore_obj (pImpl : Features)
| FeatureResult_obj (r : FeatureResult)
| FeatureData_obj (d : FeatureData.t)
| Vector_obj (v : list FeatureData.t).

Abbreviation heap := (gmap ptr object).

(** ** State and exceptions *)

Inductive outcome (A : Type) : Type :=
| Returns (a : A)
| Throws (e : exception)
| Undefined.

Arguments Returns {A} a.
Arguments Throws {A} e.
Arguments Undefined {A}.

Definition M (S A : Type) : Type := S -> S * outcome A.

Definition ret {S A} (a : A) : M S A := fun s => (s, Returns a).

Definition bind {S A B} (k : A -> M S B) (m : M S A) : M S B :=
  fun s =>
    match m s with
    | (s', Returns a) => k a s'
    | (s', Throws e) => (s', Throws e)
    | (s', Undefined) => (s', Undefined)
    end.

#[global] Instance M_ret {S} : MRet (M S) := @ret S.
#[global] Instance M_bind {S} : MBind (M S) := @bind S.

Definition throw {S A} (e : exception) : M S A := fun s => (s, Throws e).

Definition undefined {S A} : M S A := fun s => (s, Undefined).

Definition modify {S} (f : S -> S) : M S unit := fun s => (f s, Returns tt).

(** [try { m } catch (const std::exception &e) { handler e }] *)
Definition try_catch {S A} (m : M S A) (handler : exception -> M S A) : M S A :=
  fun s =>
    match m s with
    | (s', Throws e) => handler e s'
    | r => r
    end.

(** [for (A a : r) { body a }] *)
Fixpoint for_range {S A} (r : range A) (body : A -> M S unit) : M S unit :=
  match r with
  | r_end => mret tt
  | r_item a rest => body a ;; for_range rest body
  | r_throw e => throw e
  end.

(** A block with a local variable of type [L]: the block runs on the
    local alone, and its exception leaves the enclosing state as it was. *)
Definition block {S L} (init : L) (body : M L unit) : M S L :=
  fun s =>
    match body init with
    | (l, Returns _) => (s, Returns l)
    | (_, Throws e) => (s, Throws e)
    | (_, Undefined) => (s, Undefined)
    end.

(** [std::make_unique]: the new object lives at an address that is not
    in use. *)
Definition make_unique (o : object) : M heap ptr :=
  fun h => let p := fresh (dom h) in (<[p := o]> h, Returns p).

(** The destructor of a [unique_ptr] that owns [p]. *)
Definition destroy (p : ptr) : M heap unit := modify (delete p).

(** ** FeatureResult *)

(** A reference to a live [FeatureResult]; using a dangling one is
    undefined. *)
Definition this_result (this : ptr) : M heap FeatureResult :=
  fun h =>
    match h !! this with
    | Some (FeatureResult_obj r) => (h, Returns r)
    | _ => (h, Undefined)
    end.

Definition this_store (this : ptr) : M heap Features :=
  fun h =>
    match h !! this with
    | Some (FeatureStore_obj impl) => (h, Returns impl)
    | _ => (h, Undefined)
    end.

(** [FeatureResult::FeatureResult() = default] *)
Definition FeatureResult_new : FeatureResult := {| features := [] |}.

(** [size_t FeatureResult::count() const]; sizes and indices are
    natural numbers. *)
Definition count (this : ptr) : M heap nat :=
  r ← this_result this;
  mret (List.length (features r)).

(** [std::unique_ptr<FeatureData> FeatureResult::get(size_t index) const] *)
Definition get (this : ptr) (index : nat) : M heap ptr :=
  r ← this_result this;
  if decide (List.length (features r) ≤ index)%nat
  then throw (Exn Std_out_of_range "Feature index out of range")
  else
    match features r !! index with
    | Some d => make_unique (FeatureData_obj d)
    | None => undefined
    end.

(** [std::vector<FeatureData> FeatureResult::to_vector() const] *)
Definition to_vector (this : ptr) : M heap (list FeatureData.t) :=
  r ← this_result this;
  mret (features r).

(** [void FeatureResult::add_feature(FeatureData &&feature)] *)
Definition add_feature (this : ptr) (feature : FeatureData.t) : M heap unit :=
  r ← this_result this;
  modify (insert this (FeatureResult_obj {| features := features r ++ [feature] |})).

(** ** FeatureStore *)

(** [std::string::c_str()] as the callee reads a [const char *]: the
    characters before the first NUL. *)
Fixpoint c_str (s : string) : string :=
  match s with
  | EmptyString => EmptyString
  | String c rest => if Ascii.eqb c Ascii.zero then EmptyString else String c (c_str rest)
  end.

(** The body of the loop over the filtered features, up to the call of
    [add_feature]: it fills the local [FeatureData data]. *)
Definition collect (feature : Feature.t) : M FeatureData.t unit :=
  modify (FeatureData.set_id (Feature.id feature));;
  modify (FeatureData.set_type_name (Feature.typeName feature));;
  modify (FeatureData.set_lon (Feature.lon feature));;
  modify (FeatureData.set_lat (Feature.lat feature));;
  (let nameTag := Feature.tag feature "name" in
   match nameTag with
   | Some s => modify (FeatureData.set_name s)
   | None => modify (FeatureData.set_name EmptyString)
   end);;
  (let tags := Feature.tags feature in
   for_range tags (fun tag =>
     modify (FeatureData.push_tag_key (Tag.key tag));;
     modify (FeatureData.push_tag_value (Tag.value tag))));;
  if Feature.isWay feature then
    let nodes := Feature.nodes feature in
    for_range nodes (fun node =>
      let node_data := NodeData.mk (Node.id node) (Node.lon node) (Node.lat node) in
      modify (FeatureData.push_node node_data))
  else mret tt.

(** [FeatureStore::query] *)
Definition query (this : ptr) (goql_query : string) (bbox : BoundingBox) : M heap ptr :=
  result ← make_unique (FeatureResult_obj FeatureResult_new);
  try_catch
    (let box := ofWSEN (west bbox) (south bbox) (east bbox) (north bbox) in
     pImpl ← this_store this;
     let filtered := select pImpl (c_str goql_query) box in
     for_range filtered (fun feature =>
       data ← block FeatureData.init (collect feature);
       add_feature result data))
    (fun e =>
       destroy result;;
       throw (Exn Std_runtime_error ("Query failed: " +:+ what e)));;
  mret result.

(** [FeatureStore::query_amenities] *)
Definition query_amenities (this : ptr) (amenity_type : string) (bbox : BoundingBox)
  : M heap ptr :=
  let goql_query := "na[amenity=" +:+ amenity_type +:+ "]" in
  query this goql_query bbox.

(** ** Factory functions for cxx *)

(** [create_feature_store]: the constructor of [FeatureStore] opens the
    file through the library, [Features(gol_path.c_str())]; [open_gol]
    stands for what the library finds at a path. *)
Definition create_feature_store (open_gol : string -> exception + Features)
    (gol_path : string) : M heap ptr :=
  match open_gol (c_str gol_path) with
  | inr features => make_unique (FeatureStore_obj features)
  | inl e => throw e
  end.

Definition query_amenities_in_bbox (store : ptr) (amenity_type : string)
    (west south east north : float) : M heap ptr :=
  let bbox := Build_BoundingBox west south east north in
  query_amenities store amenity_type bbox.

Definition query_with_goql (store : ptr) (goql_query : string)
    (west south east north : float) : M heap ptr :=
  let bbox := Build_BoundingBox west south east north in
  query store goql_query bbox.

Definition result_count (result : ptr) : M heap nat := count result.

Definition result_to_vec (result : ptr) : M heap ptr :=
  v ← to_vector result;
  make_unique (Vector_obj v).

(** ** What a materialisation pass yields

    The functions below describe, without state, what the loops of
    [query] compute; the lemmas of the next section relate them to the
    code. *)

(** [NodeData] for a node of the store. *)
Definition node_record (node : Node.t) : NodeData.t :=
  NodeData.mk (Node.id node) (Node.lon node) (Node.lat node).

(** The record of section 4.2, step 3, for a feature whose tags and
    nodes can be enumerated to the end. *)
Definition spec_record (feature : Feature.t) : FeatureData.t :=
  {| FeatureData.id := Feature.id feature;
     FeatureData.type_name := Feature.typeName feature;
     FeatureData.lon := Feature.lon feature;
     FeatureData.lat := Feature.lat feature;
     FeatureData.name := default EmptyString (Feature.tag feature "name");
     FeatureData.tag_keys := Tag.key <$> range_items (Feature.tags feature);
     FeatureData.tag_values := Tag.value <$> range_items (Feature.tags feature);
     FeatureData.nodes :=
       if Feature.isWay feature
       then node_record <$> range_items (Feature.nodes feature)
       else [] |}.

(** The exception the store raises while one feature is read: from its
    tags, or from its nodes when it is a way. *)
Definition feature_failure (feature : Feature.t) : option exception :=
  match range_failure (Feature.tags feature) with
  | Some e => Some e
  | None =>
      if Feature.isWay feature then range_failure (Feature.nodes feature) else None
  end.

(** The first exception the store raises during a pass over [r]. *)
Fixpoint iteration_failure (r : range Feature.t) : option exception :=
  match r with
  | r_end => None
  | r_item feature rest =>
      match feature_failure feature with
      | Some e => Some e
      | None => iteration_failure rest
      end
  | r_throw e => Some e
  end.

(** The selection a query makes in the store [pImpl]. *)
Definition selection (pImpl : Features) (goql_query : string) (bbox : BoundingBox)
  : range Feature.t :=
  select pImpl (c_str goql_query)
    (ofWSEN (west bbox) (south bbox) (east bbox) (north bbox)).

(** The [QueryError] of the spec: a [std::runtime_error] whose message
    carries the cause. *)
Definition QueryError (cause : exception) : exception :=
  Exn Std_runtime_error ("Query failed: " +:+ what cause).

(** The [IndexError] of the spec. *)
Definition IndexError : exception :=
  Exn Std_out_of_range "Feature index out of range".

(** The features a pass has turned into records when it ends or fails:
    on a failure, these are the partial results. *)
Fixpoint completed (r : range Feature.t) : list Feature.t :=
  match r with
  | r_item feature rest =>
      match feature_failure feature with
      | Some _ => []
      | None => feature :: completed rest
      end
  | _ => []
  end.

(** ** Reading a result set *)

(** The object behind a [unique_ptr<FeatureData>]. *)
Definition data_at (p : ptr) : M heap FeatureData.t :=
  fun h =>
    match h !! p with
    | Some (FeatureData_obj d) => (h, Returns d)
    | _ => (h, Undefined)
    end.

(** The reading operations of a result set, and what a caller sees of
    each. *)
Inductive read : Type :=
| Count
| Get (index : nat)
| ToList.

Inductive seen : Type :=
| Counted (n : nat)
| Record_seen (d : FeatureData.t)
| Failed (e : exception)
| Listed (v : list FeatureData.t).

Definition observe (result : ptr) (op : read) : M heap seen :=
  match op with
  | Count => n ← count result; mret (Counted n)
  | Get index =>
      try_catch
        (p ← get result index; d ← data_at p; mret (Record_seen d))
        (fun e => mret (Failed e))
  | ToList => v ← to_vector result; mret (Listed v)
  end.

(** What happens to the heap around a result set: the caller reads from
    it, or lets go of some other object (the store handle, a copy it got
    earlier). *)
Inductive step : Type :=
| Read (op : read)
| Release (p : ptr).

Fixpoint run (result : ptr) (steps : list step) : M heap (list seen) :=
  match steps with
  | [] => mret []
  | Read op :: rest =>
      o ← observe result op;
      os ← run result rest;
      mret (o :: os)
  | Release p :: rest => destroy p;; run result rest
  end.

Definition reads_of (steps : list step) : list read :=
  omap (fun st => match st with Read op => Some op | Release _ => None end) steps.

(** What the records [R] alone answer to a read. *)
Definition answer (R : list FeatureData.t) (op : read) : seen :=
  match op with
  | Count => Counted (List.length R)
  | Get index =>
      match R !! index with
      | Some d => Record_seen d
      | None => Failed IndexError
      end
  | ToList => Listed R
  end.

(** The steps leave the result set itself alone. *)
Definition keeps (result : ptr) (steps : list step) : bool :=
  forallb (fun st => match st with
                     | Read _ => true
                     | Release p => negb (Pos.eqb p result)
                     end) steps.

(** What a caller can see of a run of a query: the exception, or the
    records of the result set it got. *)
Definition observed (run : heap * outcome ptr) : option (exception + list FeatureData.t) :=
  match run with
  | (h, Returns result) =>
      match h !! result with
      | Some (FeatureResult_obj R) => Some (inr (features R))
      | _ => None
      end
  | (_, Throws e) => Some (inl e)
  | (_, Undefined) => None
  end.

(** ** The amenity query of the spec *)

(** Section 4.2: the filter for all nodes and ways tagged
    amenity = [amenityType], the type inserted as it is. *)
Definition amenity_filter (amenityType : string) : string :=
  "na[amenity=" +:+ amenityType +:+ "]".

(** Section 4.2: [QueryByAmenity] delegates to the generic query. *)
Definition QueryByAmenity_spec (handle : ptr) (amenityType : string)
    (west south east north : float) : M heap ptr :=
  query_with_goql handle (amenity_filter amenityType) west south east north.

(** ** A small dataset *)

Module Sample.
Definition corner : Node.t := Node.mk 101 (-0.125)%float 51.5%float.
Definition door : Node.t := Node.mk 102 (-0.25)%float 51.75%float.

(** A cafe mapped as a way, with a name and two vertices. *)
Definition cafe : Feature.t :=
  Feature.mk 7 "way" (-0.125)%float 51.5%float
    (fun k => if String.eqb k "name" then Some "Luna" else None)
    (range_of_list [Tag.mk "amenity" "cafe"; Tag.mk "name" "Luna"])
    true
    (range_of_list [corner; door]).

(** A cafe mapped as a node, without a name. *)
Definition kiosk : Feature.t :=
  Feature.mk 8 "node" (-0.5)%float 51.25%float
    (fun _ => None)
    (range_of_list [Tag.mk "amenity" "cafe"])
    false
    r_end.

(** A node whose name tag is there and empty. *)
Definition unnamed : Feature.t :=
  Feature.mk 9 "node" (-0.5)%float 51.25%float
    (fun k => if String.eqb k "name" then Some EmptyString else None)
    (range_of_list [Tag.mk "name" EmptyString])
    false
    r_end.

Definition io_error : exception := Exn Std_exception "read error in tile".
Definition syntax_error : exception := Exn Std_runtime_error "expected ]".

(** The dataset answers two queries, fails on a third after a first
    feature, and rejects any other. *)
Definition dataset : Features :=
  {| select := fun goql _ =>
       if String.eqb goql "na[amenity=cafe]" then range_of_list [cafe; kiosk]
       else if String.eqb goql "n" then range_of_list [kiosk; unnamed]
       else if String.eqb goql "na[amenity=pub]" then r_item cafe (r_throw io_error)
       else r_throw syntax_error |}.

Definition london : BoundingBox :=
  Build_BoundingBox (-0.25)%float 51.5%float 0%float 51.75%float.

(** East and west swapped. *)
Definition inverted : BoundingBox :=
  Build_BoundingBox 0%float 51.5%float (-0.25)%float 51.75%float.

Definition store : ptr := 1%positive.
Definition h0 : heap := {[ store := FeatureStore_obj dataset ]}.

Definition cafes : list FeatureData.t := [spec_record cafe; spec_record kiosk].
Definition result : ptr := 2%positive.
Definition h1 : heap := <[result := FeatureResult_obj {| features := cafes |}]> h0.

Definition plain : list FeatureData.t := [spec_record kiosk; spec_record unnamed].
Definition h2 : heap := <[result := FeatureResult_obj {| features := plain |}]> h0.
End Sample.

(** A feature the pass can read to the end: its tags end without an
    exception, and so do its nodes when it is a way. *)
Definition readable (feature : Feature.t) : Prop :=
  range_failure (Feature.tags feature) = None /\
  (Feature.isWay feature = true -> range_failure (Feature.nodes feature) = None).

(** ** A second small dataset *)

Module Atlas.
(** A node whose node range, never asked for, would throw. *)
Definition post_box : Feature.t :=
  Feature.mk 21 "node" 13.375%float 52.5%float
    (fun _ => None)
    (range_of_list [Tag.mk "amenity" "post_box"])
    false
    (r_throw (Exn Std_exception "not a way")).

(** A way whose nodes stop short. *)
Definition torn_way : Feature.t :=
  Feature.mk 22 "way" 13.5%float 52.5%float
    (fun _ => None)
    (range_of_list [Tag.mk "highway" "path"])
    true
    (r_item (Node.mk 201 13.5%float 52.5%float)
       (r_throw (Exn Std_out_of_range "node index"))).

(** The dataset has nothing for most filters. *)
Definition dataset : Features :=
  {| select := fun goql _ =>
       if String.eqb goql "n[amenity=post_box]" then range_of_list [post_box]
       else if String.eqb goql "w[highway]" then range_of_list [torn_way]
       else r_end |}.

Definition berlin : BoundingBox :=
  Build_BoundingBox 13.25%float 52.25%float 13.75%float 52.75%float.

Definition store : ptr := 1%positive.
Definition h0 : heap := {[ store := FeatureStore_obj dataset ]}.

Definition open_gol (path : string) : exception + Features :=
  if String.eqb path "berlin.gol" then inr dataset
  else inl (Exn Std_runtime_error "file not found").
End Atlas.

(** ** The loops *)

Section Loops.
Context {S A : Type}.

Lemma bind_returns {B C} (m : M S B) (k : B -> M S C) s s' b :
  m s = (s', Returns b) -> (m ≫= k) s = k b s'.
Proof. intros H. unfold mbind, M_bind, bind. now rewrite H. Qed.

Lemma bind_throws {B C} (m : M S B) (k : B -> M S C) s s' e :
  m s = (s', Throws e) -> (m ≫= k) s = (s', Throws e).
Proof. intros H. unfold mbind, M_bind, bind. now rewrite H. Qed.

(** A loop whose body only updates the state runs the update over the
    elements the range yields, then ends as the range does. *)
Lemma for_range_steps (step : A -> S -> S) (body : A -> M S unit) (r : range A) :
  (forall a s, body a s = (step a s, Returns tt)) ->
  forall s, for_range r body s =
    (foldl (fun s a => step a s) s (range_items r),
     match range_failure r with
     | Some e => Throws e
     | None => Returns tt
     end).
Proof.
  intros Hbody. induction r as [|a rest IH|e]; intros s; simpl.
  - reflexivity.
  - rewrite (bind_returns _ _ _ _ _ (Hbody a s)). apply IH.
  - reflexivity.
Qed.
End Loops.

Lemma push_tags_foldl (ts : list Tag.t) (d : FeatureData.t) :
  foldl (fun d tag =>
           FeatureData.push_tag_value (Tag.value tag)
             (FeatureData.push_tag_key (Tag.key tag) d)) d ts =
  FeatureData.mk (FeatureData.id d) (FeatureData.type_name d)
    (FeatureData.lon d) (FeatureData.lat d) (FeatureData.name d)
    (FeatureData.tag_keys d ++ (Tag.key <$> ts))
    (FeatureData.tag_values d ++ (Tag.value <$> ts))
    (FeatureData.nodes d).
Proof.
  revert d. induction ts as [|tag ts IH]; intros [i ty lo la nm ks vs ns]; simpl.
  - now rewrite !app_nil_r.
  - rewrite IH. simpl. now rewrite <- !app_assoc.
Qed.

Lemma push_nodes_foldl (ns : list Node.t) (d : FeatureData.t) :
  foldl (fun d node => FeatureData.push_node (node_record node) d) d ns =
  FeatureData.mk (FeatureData.id d) (FeatureData.type_name d)
    (FeatureData.lon d) (FeatureData.lat d) (FeatureData.name d)
    (FeatureData.tag_keys d) (FeatureData.tag_values d)
    (FeatureData.nodes d ++ (node_record <$> ns)).
Proof.
  revert d. induction ns as [|node ns IH]; intros [i ty lo la nm ks vs nds]; simpl.
  - now rewrite app_nil_r.
  - rewrite IH. simpl. now rewrite <- app_assoc.
Qed.

(** The block that fills [data] returns the record of the feature, or
    throws what the store threw; the heap is not touched. *)
Lemma collect_block {S} (feature : Feature.t) (s : S) :
  block FeatureData.init (collect feature) s =
  (s, match feature_failure feature with
      | Some e => Throws e
      | None => Returns (spec_record feature)
      end).
Proof.
  unfold block, collect, feature_failure, spec_record.
  unfold mbind, M_bind, bind, modify. simpl.
  destruct feature as [i ty lo la tg ts way ns]; simpl.
  destruct (tg "name") as [nm|]; simpl.
  all: rewrite (for_range_steps
    (fun tag d => FeatureData.push_tag_value (Tag.value tag)
                    (FeatureData.push_tag_key (Tag.key tag) d))) by reflexivity.
  all: rewrite push_tags_foldl; simpl.
  all: destruct (range_failure ts) as [e|]; [reflexivity|].
  all: destruct way; [|reflexivity].
  all: rewrite (for_range_steps
    (fun node d => FeatureData.push_node (node_record node) d)) by reflexivity.
  all: rewrite push_nodes_foldl; simpl.
  all: now destruct (range_failure ns).
Qed.

Lemma completed_all (r : range Feature.t) :
  iteration_failure r = None -> completed r = range_items r.
Proof.
  induction r as [|feature rest IH|e]; simpl; try done.
  destruct (feature_failure feature); [done|]. intros H. now rewrite IH.
Qed.

Lemma fresh_None (h : heap) : h !! fresh (dom h) = None.
Proof. apply not_elem_of_dom, is_fresh. Qed.

Lemma fresh_ne (h : heap) (p : ptr) (o : object) :
  h !! p = Some o -> fresh (dom h) ≠ p.
Proof. intros Hp Heq. rewrite <- Heq, fresh_None in Hp. discriminate. Qed.

Lemma add_feature_insert (result : ptr) (R : list FeatureData.t)
    (data : FeatureData.t) (h : heap) :
  add_feature result data (<[result := FeatureResult_obj {| features := R |}]> h) =
  (<[result := FeatureResult_obj {| features := R ++ [data] |}]> h, Returns tt).
Proof.
  unfold add_feature, this_result, mbind, M_bind, bind, modify.
  rewrite lookup_insert_eq. simpl. now rewrite insert_insert_eq.
Qed.

(** The loop of [query] over the filtered features, started on a result
    that holds [R]. *)
Lemma features_loop (result : ptr) (r : range Feature.t) :
  forall (R : list FeatureData.t) (h : heap),
    for_range r
      (fun feature =>
         data ← block FeatureData.init (collect feature);
         add_feature result data)
      (<[result := FeatureResult_obj {| features := R |}]> h) =
    (<[result := FeatureResult_obj
         {| features := R ++ (spec_record <$> completed r) |}]> h,
     match iteration_failure r with
     | Some e => Throws e
     | None => Returns tt
     end).
Proof.
  induction r as [|feature rest IH|e]; intros R h; simpl.
  - now rewrite app_nil_r.
  - unfold mbind at 1, M_bind at 1, bind at 1.
    unfold mbind at 1, M_bind at 1, bind at 1.
    rewrite collect_block.
    destruct (feature_failure feature) as [e|]; simpl.
    + now rewrite app_nil_r.
    + rewrite add_feature_insert, IH. now rewrite <- app_assoc.
  - now rewrite app_nil_r.
Qed.

(** [query], run on a heap where [this] is a live store. *)
Lemma query_spec (this : ptr) (pImpl : Features) (goql_query : string)
    (bbox : BoundingBox) (h : heap) :
  h !! this = Some (FeatureStore_obj pImpl) ->
  query this goql_query bbox h =
  match iteration_failure (selection pImpl goql_query bbox) with
  | Some e => (h, Throws (QueryError e))
  | None =>
      (<[fresh (dom h) := FeatureResult_obj
           {| features := spec_record <$> range_items (selection pImpl goql_query bbox) |}]> h,
       Returns (fresh (dom h)))
  end.
Proof.
  intros Hthis. unfold query, make_unique, try_catch, this_store, selection.
  unfold mbind at 1, M_bind at 1, bind at 1.
  unfold mbind at 1, M_bind at 1, bind at 1.
  unfold mbind at 1, M_bind at 1, bind at 1.
  rewrite lookup_insert_ne by (eapply fresh_ne; eassumption).
  rewrite Hthis. unfold FeatureResult_new.
  rewrite (features_loop (fresh (dom h)) _ [] h). simpl.
  set (r := select pImpl _ _).
  destruct (iteration_failure r) as [e|] eqn:Hfail.
  - unfold destroy, modify, throw, mbind, M_bind, bind. simpl.
    rewrite delete_insert_eq. now rewrite delete_id by apply fresh_None.
  - now rewrite completed_all.
Qed.

(** A query that returns has run on a live store whose pass did not
    fail. *)
Lemma query_returns (this : ptr) (goql_query : string) (bbox : BoundingBox)
    (h h' : heap) (result : ptr) :
  query this goql_query bbox h = (h', Returns result) ->
  exists pImpl,
    h !! this = Some (FeatureStore_obj pImpl) /\
    iteration_failure (selection pImpl goql_query bbox) = None /\
    result = fresh (dom h) /\
    h' = <[result := FeatureResult_obj
             {| features := spec_record <$> range_items (selection pImpl goql_query bbox) |}]> h.
Proof.
  intros Hq.
  destruct (h !! this) as [[pImpl|r|d|v]|] eqn:Hthis.
  { rewrite (query_spec _ _ _ _ _ Hthis) in Hq.
    destruct (iteration_failure _) eqn:Hfail; [discriminate|].
    injection Hq as <- <-. now exists pImpl. }
  all: exfalso; revert Hq; unfold query, make_unique, try_catch, this_store.
  all: unfold mbind, M_bind, bind.
  1-3: rewrite lookup_insert_ne by (eapply fresh_ne; eassumption).
  1-3: now rewrite Hthis.
  destruct (decide (fresh (dom h) = this)) as [->|Hne].
  - rewrite lookup_insert_eq. simpl. discriminate.
  - rewrite lookup_insert_ne by done. now rewrite Hthis.
Qed.

(** ** Reading from a live result *)

Section Reading.
Variables (h : heap) (result : ptr) (R : FeatureResult).
Hypothesis Hlive : h !! result = Some (FeatureResult_obj R).

Lemma count_live : count result h = (h, Returns (List.length (features R))).
Proof. unfold count, this_result, mbind, M_bind, bind. now rewrite Hlive. Qed.

Lemma to_vector_live : to_vector result h = (h, Returns (features R)).
Proof. unfold to_vector, this_result, mbind, M_bind, bind. now rewrite Hlive. Qed.

Lemma get_live_in (index : nat) (d : FeatureData.t) :
  features R !! index = Some d ->
  get result index h =
  (<[fresh (dom h) := FeatureData_obj d]> h, Returns (fresh (dom h))).
Proof.
  intros Hd. unfold get, this_result, mbind, M_bind, bind. rewrite Hlive.
  apply lookup_lt_Some in Hd as Hlt.
  destruct (decide _) as [Hge|_]; [lia|]. now rewrite Hd.
Qed.

Lemma get_live_out (index : nat) :
  (List.length (features R) ≤ index)%nat ->
  get result index h = (h, Throws IndexError).
Proof.
  intros Hge. unfold get, this_result, mbind, M_bind, bind. rewrite Hlive.
  now destruct (decide _).
Qed.

Lemma observe_live (op : read) :
  exists h',
    observe result op h = (h', Returns (answer (features R) op)) /\
    h' !! result = Some (FeatureResult_obj R) /\
    (forall p o, h !! p = Some o -> h' !! p = Some o).
Proof.
  destruct op as [|index|]; simpl.
  - exists h. now rewrite (bind_returns _ _ _ _ _ count_live).
  - destruct (features R !! index) as [d|] eqn:Hd.
    + exists (<[fresh (dom h) := FeatureData_obj d]> h).
      unfold try_catch.
      rewrite (bind_returns _ _ _ _ _ (get_live_in _ _ Hd)).
      unfold data_at, mbind, M_bind, bind. rewrite lookup_insert_eq.
      split; [done|].
      split; [|intros p o Hp]; rewrite lookup_insert_ne; eauto using fresh_ne.
    + exists h. unfold try_catch.
      apply lookup_ge_None in Hd.
      now rewrite (bind_throws _ _ _ _ _ (get_live_out _ Hd)).
  - exists h. now rewrite (bind_returns _ _ _ _ _ to_vector_live).
Qed.
End Reading.

(** ** Records of a successful query *)

Lemma iteration_failure_items (r : range Feature.t) (feature : Feature.t) :
  iteration_failure r = None ->
  feature ∈ range_items r ->
  feature_failure feature = None.
Proof.
  induction r as [|f rest IH|e]; simpl; intros Hfail Hin.
  - now apply elem_of_nil in Hin.
  - destruct (feature_failure f) eqn:Hf; [discriminate|].
    apply elem_of_cons in Hin as [->|Hin]; auto.
  - discriminate.
Qed.

(** The record at position [i] of the result of a query comes from the
    feature at position [i] of the selection. *)
Lemma query_record (this : ptr) (goql_query : string) (bbox : BoundingBox)
    (h h' : heap) (result : ptr) (R : FeatureResult) (i : nat) (d : FeatureData.t) :
  query this goql_query bbox h = (h', Returns result) ->
  h' !! result = Some (FeatureResult_obj R) ->
  features R !! i = Some d ->
  exists pImpl feature,
    h !! this = Some (FeatureStore_obj pImpl) /\
    range_items (selection pImpl goql_query bbox) !! i = Some feature /\
    feature_failure feature = None /\
    d = spec_record feature.
Proof.
  intros Hq Hres Hd.
  apply query_returns in Hq as (pImpl & Hthis & Hfail & _ & ->).
  rewrite lookup_insert_eq in Hres. injection Hres as <-. simpl in Hd.
  apply list_lookup_fmap_Some in Hd as (feature & -> & Hf).
  exists pImpl, feature. repeat split; try done.
  eapply iteration_failure_items; [exact Hfail|].
  eapply list_elem_of_lookup_2, Hf.
Qed.

(** ** Runs on the small dataset *)

Example create_store :
  create_feature_store (fun _ => inr Sample.dataset) "london.gol" ∅ =
  (Sample.h0, Returns Sample.store).
Proof. vm_compute. reflexivity. Qed.

Example query_cafes :
  query_amenities Sample.store "cafe" Sample.london Sample.h0 =
  (Sample.h1, Returns Sample.result).
Proof. vm_compute. reflexivity. Qed.

Example query_cafes_records :
  Sample.cafes =
  [ FeatureData.mk 7 "way" (-0.125)%float 51.5%float "Luna"
      ["amenity"; "name"] ["cafe"; "Luna"]
      [NodeData.mk 101 (-0.125)%float 51.5%float;
       NodeData.mk 102 (-0.25)%float 51.75%float];
    FeatureData.mk 8 "node" (-0.5)%float 51.25%float EmptyString
      ["amenity"] ["cafe"] [] ].
Proof. reflexivity. Qed.

Example query_rejected :
  query Sample.store "na[amenity" Sample.london Sample.h0 =
  (Sample.h0, Throws (Exn Std_runtime_error "Query failed: expected ]")).
Proof. vm_compute. reflexivity. Qed.

Example query_dangling_store :
  snd (query 5%positive "n" Sample.london Sample.h0) = Undefined.
Proof. vm_compute. reflexivity. Qed.

Example c_str_stops_at_nul :
  c_str (String "n" (String Ascii.zero "w")) = "n".
Proof. reflexivity. Qed.

Example get_second :
  (r ← get Sample.result 1; data_at r) Sample.h1 =
  (<[3%positive := FeatureData_obj (spec_record Sample.kiosk)]> Sample.h1,
   Returns (spec_record Sample.kiosk)).
Proof. vm_compute. reflexivity. Qed.

(** ** The claims *)

(** C1. For the result of every query that returns, [to_vector] yields
    as many records as [count] reports, [get] at every index below the
    count hands out a record equal to the one [to_vector] has at that
    index, and the records are those of the selected features, in the
    order the store yields them. *)
Theorem to_vector_count_get (this : ptr) (goql_query : string) (bbox : BoundingBox)
    (h h' : heap) (result : ptr) :
  query this goql_query bbox h = (h', Returns result) ->
  exists (pImpl : Features) (v : list FeatureData.t),
    h !! this = Some (FeatureStore_obj pImpl) /\
    to_vector result h' = (h', Returns v) /\
    count result h' = (h', Returns (List.length v)) /\
    result_count result h' = (h', Returns (List.length v)) /\
    (exists (p : ptr) (h'' : heap),
       result_to_vec result h' = (h'', Returns p) /\
       h'' !! p = Some (Vector_obj v)) /\
    v = spec_record <$> range_items (selection pImpl goql_query bbox) /\
    forall i : nat, (i < List.length v)%nat ->
      exists (d : FeatureData.t) (p : ptr) (h'' : heap),
        v !! i = Some d /\
        get result i h' = (h'', Returns p) /\
        h'' !! p = Some (FeatureData_obj d).
Proof.
  intros Hq.
  apply query_returns in Hq as (pImpl & Hthis & Hfail & _ & ->).
  set (R := {| features := spec_record <$> range_items (selection pImpl goql_query bbox) |}).
  set (h' := <[result := FeatureResult_obj R]> h).
  assert (Hlive : h' !! result = Some (FeatureResult_obj R)) by apply lookup_insert_eq.
  exists pImpl, (features R). split; [done|].
  split; [now apply to_vector_live|].
  split; [now apply count_live|].
  split; [now apply count_live|].
  split.
  { exists (fresh (dom h')), (<[fresh (dom h') := Vector_obj (features R)]> h').
    unfold result_to_vec.
    rewrite (bind_returns _ _ _ _ _ (to_vector_live _ _ _ Hlive)).
    split; [done|apply lookup_insert_eq]. }
  split; [done|].
  intros i Hi. apply lookup_lt_is_Some in Hi as [d Hd].
  exists d, (fresh (dom h')), (<[fresh (dom h') := FeatureData_obj d]> h').
  split; [done|]. split; [now apply (get_live_in _ _ R)|apply lookup_insert_eq].
Qed.

Lemma to_vector_count_get_witness :
  exists (pImpl : Features) (v : list FeatureData.t),
    Sample.h0 !! Sample.store = Some (FeatureStore_obj pImpl) /\
    to_vector Sample.result Sample.h1 = (Sample.h1, Returns v) /\
    count Sample.result Sample.h1 = (Sample.h1, Returns (List.length v)) /\
    result_count Sample.result Sample.h1 = (Sample.h1, Returns (List.length v)) /\
    (exists (p : ptr) (h'' : heap),
       result_to_vec Sample.result Sample.h1 = (h'', Returns p) /\
       h'' !! p = Some (Vector_obj v)) /\
    v = spec_record <$>
          range_items (selection pImpl "na[amenity=cafe]" Sample.london) /\
    forall i : nat, (i < List.length v)%nat ->
      exists (d : FeatureData.t) (p : ptr) (h'' : heap),
        v !! i = Some d /\
        get Sample.result i Sample.h1 = (h'', Returns p) /\
        h'' !! p = Some (FeatureData_obj d).
Proof.
  apply (to_vector_count_get Sample.store "na[amenity=cafe]" Sample.london Sample.h0).
  vm_compute. reflexivity.
Defined.

(** C3. On a live result set, [get] throws the index error exactly when
    the index is not below the count; below the count it returns a fresh
    object holding the record at that position, the result set is as it
    was, and writing to the new object does not reach it. *)
Theorem get_index_error_iff (h : heap) (result : ptr) (R : FeatureResult) (index : nat) :
  h !! result = Some (FeatureResult_obj R) ->
  count result h = (h, Returns (List.length (features R))) /\
  (snd (get result index h) = Throws IndexError <->
   (List.length (features R) ≤ index)%nat) /\
  ((List.length (features R) ≤ index)%nat -> get result index h = (h, Throws IndexError)) /\
  ((index < List.length (features R))%nat ->
   exists (d : FeatureData.t) (p : ptr) (h' : heap),
     features R !! index = Some d /\
     get result index h = (h', Returns p) /\
     h !! p = None /\
     h' = <[p := FeatureData_obj d]> h /\
     h' !! result = Some (FeatureResult_obj R) /\
     forall o : object, <[p := o]> h' !! result = Some (FeatureResult_obj R)).
Proof.
  intros Hlive.
  split; [now apply count_live|].
  assert (Hin : (index < List.length (features R))%nat ->
    exists (d : FeatureData.t) (p : ptr) (h' : heap),
     features R !! index = Some d /\
     get result index h = (h', Returns p) /\
     h !! p = None /\
     h' = <[p := FeatureData_obj d]> h /\
     h' !! result = Some (FeatureResult_obj R) /\
     forall o : object, <[p := o]> h' !! result = Some (FeatureResult_obj R)).
  { intros Hlt. apply lookup_lt_is_Some in Hlt as [d Hd].
    exists d, (fresh (dom h)), (<[fresh (dom h) := FeatureData_obj d]> h).
    split; [done|]. split; [now apply (get_live_in _ _ R)|].
    split; [apply fresh_None|]. split; [done|].
    assert (Hne : fresh (dom h) ≠ result) by eauto using fresh_ne.
    split; [|intros o]; now rewrite !lookup_insert_ne. }
  split; [|split; [now apply get_live_out|exact Hin]].
  split.
  - intros Hthrow. destruct (decide (List.length (features R) ≤ index)%nat) as [|Hlt]; [done|].
    destruct Hin as (d & p & h' & _ & Hget & _); [lia|].
    rewrite Hget in Hthrow. discriminate.
  - intros Hge. now rewrite (get_live_out _ _ R).
Qed.

Lemma get_index_error_iff_witness :
  count Sample.result Sample.h1 = (Sample.h1, Returns 2%nat) /\
  (snd (get Sample.result 2 Sample.h1) = Throws IndexError <-> (2 ≤ 2)%nat) /\
  ((2 ≤ 2)%nat -> get Sample.result 2 Sample.h1 = (Sample.h1, Throws IndexError)) /\
  ((2 < 2)%nat ->
   exists (d : FeatureData.t) (p : ptr) (h' : heap),
     Sample.cafes !! 2%nat = Some d /\
     get Sample.result 2 Sample.h1 = (h', Returns p) /\
     Sample.h1 !! p = None /\
     h' = <[p := FeatureData_obj d]> Sample.h1 /\
     h' !! Sample.result = Some (FeatureResult_obj {| features := Sample.cafes |}) /\
     forall o : object,
       <[p := o]> h' !! Sample.result =
       Some (FeatureResult_obj {| features := Sample.cafes |})).
Proof.
  apply (get_index_error_iff Sample.h1 Sample.result {| features := Sample.cafes |} 2).
  vm_compute. reflexivity.
Defined.

(** C2. When the store raises an exception during the pass (the filter
    is rejected, or the features, the tags or a way's nodes stop short),
    [query] and [query_amenities] throw the query error whose message
    carries the message of that exception, and the heap is the one
    before the call: the result under construction is gone with the
    records it held. *)
Theorem query_failure_all_or_nothing (this : ptr) (pImpl : Features)
    (goql_query : string) (bbox : BoundingBox) (h : heap) (cause : exception) :
  h !! this = Some (FeatureStore_obj pImpl) ->
  iteration_failure (selection pImpl goql_query bbox) = Some cause ->
  query this goql_query bbox h = (h, Throws (QueryError cause)) /\
  what (QueryError cause) = "Query failed: " +:+ what cause /\
  (forall amenity_type : string,
     goql_query = "na[amenity=" +:+ amenity_type +:+ "]" ->
     query_amenities this amenity_type bbox h = (h, Throws (QueryError cause))) /\
  (forall amenity_type : string,
     goql_query = "na[amenity=" +:+ amenity_type +:+ "]" ->
     query_amenities_in_bbox this amenity_type
       (west bbox) (south bbox) (east bbox) (north bbox) h =
     (h, Throws (QueryError cause))) /\
  query_with_goql this goql_query (west bbox) (south bbox) (east bbox) (north bbox) h =
  (h, Throws (QueryError cause)).
Proof.
  intros Hthis Hfail.
  assert (Hq : query this goql_query bbox h = (h, Throws (QueryError cause))).
  { rewrite (query_spec _ _ _ _ _ Hthis). now rewrite Hfail. }
  destruct bbox as [w s e n]. simpl.
  split; [exact Hq|]. split; [reflexivity|].
  split; [|split]; try exact Hq.
  - intros amenity_type ->. exact Hq.
  - intros amenity_type ->. exact Hq.
Qed.

Lemma query_failure_all_or_nothing_witness :
  query Sample.store "na[amenity=pub]" Sample.london Sample.h0 =
    (Sample.h0, Throws (QueryError Sample.io_error)) /\
  what (QueryError Sample.io_error) = "Query failed: " +:+ what Sample.io_error /\
  (forall amenity_type : string,
     "na[amenity=pub]" = "na[amenity=" +:+ amenity_type +:+ "]" ->
     query_amenities Sample.store amenity_type Sample.london Sample.h0 =
     (Sample.h0, Throws (QueryError Sample.io_error))) /\
  (forall amenity_type : string,
     "na[amenity=pub]" = "na[amenity=" +:+ amenity_type +:+ "]" ->
     query_amenities_in_bbox Sample.store amenity_type
       (west Sample.london) (south Sample.london)
       (east Sample.london) (north Sample.london) Sample.h0 =
     (Sample.h0, Throws (QueryError Sample.io_error))) /\
  query_with_goql Sample.store "na[amenity=pub]"
    (west Sample.london) (south Sample.london)
    (east Sample.london) (north Sample.london) Sample.h0 =
  (Sample.h0, Throws (QueryError Sample.io_error)).
Proof.
  apply (query_failure_all_or_nothing Sample.store Sample.dataset).
  - vm_compute. reflexivity.
  - vm_compute. reflexivity.
Defined.

Lemma substring_append (t rest : string) :
  substring 0 (String.length t) (t +:+ rest) = t.
Proof. induction t as [|c t IH]; simpl; [now destruct rest|now rewrite IH]. Qed.

Lemma length_append (s t : string) :
  String.length (s +:+ t) = (String.length s + String.length t)%nat.
Proof. induction s as [|c s IH]; simpl; [done|now rewrite IH]. Qed.

(** C4. The amenity query is the generic query on the filter that has
    the amenity type inserted as it is: both run the same computation on
    every heap, and the type can be read back from the filter, character
    for character, after the eleven characters of the opening. *)
Theorem query_amenities_is_query (store : ptr) (amenity_type : string)
    (west south east north : float) (h : heap) :
  query_amenities_in_bbox store amenity_type west south east north h =
  QueryByAmenity_spec store amenity_type west south east north h /\
  query_amenities store amenity_type (Build_BoundingBox west south east north) h =
  query store (amenity_filter amenity_type) (Build_BoundingBox west south east north) h /\
  substring 11 (String.length amenity_type) (amenity_filter amenity_type) = amenity_type /\
  String.length (amenity_filter amenity_type) = (12 + String.length amenity_type)%nat.
Proof.
  split; [reflexivity|]. split; [reflexivity|].
  unfold amenity_filter. split.
  - change (substring 0 (String.length amenity_type) (amenity_type +:+ "]") = amenity_type).
    apply substring_append.
  - rewrite !length_append. simpl. lia.
Qed.

(** C5. In the result of a query, the record at position [i] has nodes
    only if the feature at position [i] is a way: for a way the store's
    node range was read to its end during the pass and the record holds
    one [NodeData] per node, with the node's id, lon and lat, in the
    store's order; for any other feature the record has no nodes. *)
Theorem way_nodes_captured (this : ptr) (goql_query : string) (bbox : BoundingBox)
    (h h' : heap) (result : ptr) (R : FeatureResult) (i : nat) (d : FeatureData.t) :
  query this goql_query bbox h = (h', Returns result) ->
  h' !! result = Some (FeatureResult_obj R) ->
  features R !! i = Some d ->
  exists (pImpl : Features) (feature : Feature.t),
    h !! this = Some (FeatureStore_obj pImpl) /\
    range_items (selection pImpl goql_query bbox) !! i = Some feature /\
    (Feature.isWay feature = true ->
     range_failure (Feature.nodes feature) = None /\
     FeatureData.nodes d =
       (fun node => NodeData.mk (Node.id node) (Node.lon node) (Node.lat node)) <$>
         range_items (Feature.nodes feature)) /\
    (Feature.isWay feature = false -> FeatureData.nodes d = []) /\
    (FeatureData.nodes d ≠ [] -> Feature.isWay feature = true).
Proof.
  intros Hq Hres Hd.
  destruct (query_record _ _ _ _ _ _ _ _ _ Hq Hres Hd)
    as (pImpl & feature & Hthis & Hf & Hfail & ->).
  exists pImpl, feature. split; [done|]. split; [done|].
  unfold feature_failure in Hfail. unfold spec_record. simpl.
  destruct (Feature.isWay feature).
  - split; [|split; [discriminate|done]].
    intros _. split; [|done].
    now destruct (range_failure (Feature.tags feature)).
  - split; [discriminate|]. split; [done|]. intros Hne. now destruct Hne.
Qed.

Lemma way_nodes_captured_witness :
  exists (pImpl : Features) (feature : Feature.t),
    Sample.h0 !! Sample.store = Some (FeatureStore_obj pImpl) /\
    range_items (selection pImpl "na[amenity=cafe]" Sample.london) !! 0%nat =
      Some feature /\
    (Feature.isWay feature = true ->
     range_failure (Feature.nodes feature) = None /\
     FeatureData.nodes (spec_record Sample.cafe) =
       (fun node => NodeData.mk (Node.id node) (Node.lon node) (Node.lat node)) <$>
         range_items (Feature.nodes feature)) /\
    (Feature.isWay feature = false ->
     FeatureData.nodes (spec_record Sample.cafe) = []) /\
    (FeatureData.nodes (spec_record Sample.cafe) ≠ [] ->
     Feature.isWay feature = true).
Proof.
  apply (way_nodes_captured Sample.store "na[amenity=cafe]" Sample.london
           Sample.h0 Sample.h1 Sample.result {| features := Sample.cafes |} 0).
  - vm_compute. reflexivity.
  - vm_compute. reflexivity.
  - vm_compute. reflexivity.
Defined.

(** C6. In the result of a query, the record of a feature that has no
    name tag has the empty string as its name, the same name as the
    record of a feature whose name tag is there and empty; the name is
    always a string, the value of the tag when there is one. *)
Theorem absent_name_is_empty (this : ptr) (goql_query : string) (bbox : BoundingBox)
    (h h' : heap) (result : ptr) (R : FeatureResult) (i : nat) (d : FeatureData.t) :
  query this goql_query bbox h = (h', Returns result) ->
  h' !! result = Some (FeatureResult_obj R) ->
  features R !! i = Some d ->
  exists (pImpl : Features) (feature : Feature.t),
    h !! this = Some (FeatureStore_obj pImpl) /\
    range_items (selection pImpl goql_query bbox) !! i = Some feature /\
    (Feature.tag feature "name" = None -> FeatureData.name d = EmptyString) /\
    (Feature.tag feature "name" = Some EmptyString -> FeatureData.name d = EmptyString) /\
    (forall s : string, Feature.tag feature "name" = Some s -> FeatureData.name d = s).
Proof.
  intros Hq Hres Hd.
  destruct (query_record _ _ _ _ _ _ _ _ _ Hq Hres Hd)
    as (pImpl & feature & Hthis & Hf & _ & ->).
  exists pImpl, feature. split; [done|]. split; [done|].
  unfold spec_record. simpl.
  repeat split; intros; now rewrite H.
Qed.

Lemma absent_name_is_empty_witness :
  exists (pImpl : Features) (feature : Feature.t),
    Sample.h0 !! Sample.store = Some (FeatureStore_obj pImpl) /\
    range_items (selection pImpl "n" Sample.london) !! 0%nat = Some feature /\
    (Feature.tag feature "name" = None ->
     FeatureData.name (spec_record Sample.kiosk) = EmptyString) /\
    (Feature.tag feature "name" = Some EmptyString ->
     FeatureData.name (spec_record Sample.kiosk) = EmptyString) /\
    (forall s : string, Feature.tag feature "name" = Some s ->
     FeatureData.name (spec_record Sample.kiosk) = s).
Proof.
  apply (absent_name_is_empty Sample.store "n" Sample.london
           Sample.h0 Sample.h2 Sample.result {| features := Sample.plain |} 0).
  - vm_compute. reflexivity.
  - vm_compute. reflexivity.
  - vm_compute. reflexivity.
Defined.

(** C7. The generic query hands the store the box built from the four
    coordinates in the order west, south, east, north, whatever their
    values; when the pass does not fail, the result set holds the
    records of the selected features in the order the store yields
    them, and [to_vector] returns them in that order. *)
Theorem box_order_and_iteration_order (this : ptr) (pImpl : Features)
    (goql_query : string) (w s e n : float) (h : heap) :
  h !! this = Some (FeatureStore_obj pImpl) ->
  iteration_failure (select pImpl (c_str goql_query) (ofWSEN w s e n)) = None ->
  exists (result : ptr) (h' : heap),
    query_with_goql this goql_query w s e n h = (h', Returns result) /\
    query this goql_query (Build_BoundingBox w s e n) h = (h', Returns result) /\
    h' !! result =
      Some (FeatureResult_obj
              {| features :=
                   spec_record <$>
                     range_items (select pImpl (c_str goql_query) (ofWSEN w s e n)) |}) /\
    to_vector result h' =
      (h', Returns (spec_record <$>
                      range_items (select pImpl (c_str goql_query) (ofWSEN w s e n)))).
Proof.
  intros Hthis Hfail.
  pose proof (query_spec this pImpl goql_query (Build_BoundingBox w s e n) h Hthis) as Hq.
  unfold selection in Hq. simpl in Hq. rewrite Hfail in Hq.
  eexists _, _. split; [exact Hq|]. split; [exact Hq|].
  assert (Hlive : forall o : object, <[fresh (dom h) := o]> h !! fresh (dom h) = Some o)
    by (intros o; apply lookup_insert_eq).
  split; [apply Hlive|].
  unfold to_vector, this_result, mbind, M_bind, bind. now rewrite Hlive.
Qed.

Lemma box_order_and_iteration_order_witness :
  exists (result : ptr) (h' : heap),
    query_with_goql Sample.store "na[amenity=cafe]"
      0%float 51.5%float (-0.25)%float 51.75%float Sample.h0 = (h', Returns result) /\
    query Sample.store "na[amenity=cafe]" Sample.inverted Sample.h0 =
      (h', Returns result) /\
    h' !! result =
      Some (FeatureResult_obj
              {| features :=
                   spec_record <$>
                     range_items (select Sample.dataset (c_str "na[amenity=cafe]")
                                    (ofWSEN 0%float 51.5%float (-0.25)%float 51.75%float)) |}) /\
    to_vector result h' =
      (h', Returns (spec_record <$>
                      range_items (select Sample.dataset (c_str "na[amenity=cafe]")
                                     (ofWSEN 0%float 51.5%float (-0.25)%float 51.75%float)))).
Proof.
  apply (box_order_and_iteration_order Sample.store Sample.dataset
           "na[amenity=cafe]" 0%float 51.5%float (-0.25)%float 51.75%float Sample.h0).
  - vm_compute. reflexivity.
  - vm_compute. reflexivity.
Defined.

(** C10. In the result of a query, every record has as many tag keys as
    tag values, and position [j] of the two holds the key and the value
    of the tag the store yielded at position [j], for all the tags of
    the feature. *)
Theorem tag_keys_values_parallel (this : ptr) (goql_query : string) (bbox : BoundingBox)
    (h h' : heap) (result : ptr) (R : FeatureResult) (i : nat) (d : FeatureData.t) :
  query this goql_query bbox h = (h', Returns result) ->
  h' !! result = Some (FeatureResult_obj R) ->
  features R !! i = Some d ->
  List.length (FeatureData.tag_keys d) = List.length (FeatureData.tag_values d) /\
  exists (pImpl : Features) (feature : Feature.t),
    h !! this = Some (FeatureStore_obj pImpl) /\
    range_items (selection pImpl goql_query bbox) !! i = Some feature /\
    range_failure (Feature.tags feature) = None /\
    List.length (FeatureData.tag_keys d) =
      List.length (range_items (Feature.tags feature)) /\
    forall j : nat,
      FeatureData.tag_keys d !! j =
        Tag.key <$> (range_items (Feature.tags feature) !! j) /\
      FeatureData.tag_values d !! j =
        Tag.value <$> (range_items (Feature.tags feature) !! j).
Proof.
  intros Hq Hres Hd.
  destruct (query_record _ _ _ _ _ _ _ _ _ Hq Hres Hd)
    as (pImpl & feature & Hthis & Hf & Hfail & ->).
  unfold spec_record. simpl. split; [now rewrite !length_fmap|].
  exists pImpl, feature. split; [done|]. split; [done|].
  split.
  - unfold feature_failure in Hfail.
    now destruct (range_failure (Feature.tags feature)).
  - split; [now rewrite length_fmap|].
    intros j. now rewrite !list_lookup_fmap.
Qed.

Lemma tag_keys_values_parallel_witness :
  List.length (FeatureData.tag_keys (spec_record Sample.cafe)) =
  List.length (FeatureData.tag_values (spec_record Sample.cafe)) /\
  exists (pImpl : Features) (feature : Feature.t),
    Sample.h0 !! Sample.store = Some (FeatureStore_obj pImpl) /\
    range_items (selection pImpl "na[amenity=cafe]" Sample.london) !! 0%nat =
      Some feature /\
    range_failure (Feature.tags feature) = None /\
    List.length (FeatureData.tag_keys (spec_record Sample.cafe)) =
      List.length (range_items (Feature.tags feature)) /\
    forall j : nat,
      FeatureData.tag_keys (spec_record Sample.cafe) !! j =
        Tag.key <$> (range_items (Feature.tags feature) !! j) /\
      FeatureData.tag_values (spec_record Sample.cafe) !! j =
        Tag.value <$> (range_items (Feature.tags feature) !! j).
Proof.
  apply (tag_keys_values_parallel Sample.store "na[amenity=cafe]" Sample.london
           Sample.h0 Sample.h1 Sample.result {| features := Sample.cafes |} 0).
  - vm_compute. reflexivity.
  - vm_compute. reflexivity.
  - vm_compute. reflexivity.
Defined.

(** A query leaves every object of the heap it started from as it was. *)
Lemma query_frame (this : ptr) (pImpl : Features) (goql_query : string)
    (bbox : BoundingBox) (h : heap) (p : ptr) (o : object) :
  h !! this = Some (FeatureStore_obj pImpl) ->
  h !! p = Some o ->
  fst (query this goql_query bbox h) !! p = Some o.
Proof.
  intros Hthis Hp. rewrite (query_spec _ _ _ _ _ Hthis).
  destruct (iteration_failure _); simpl; [done|].
  rewrite lookup_insert_ne; eauto using fresh_ne.
Qed.

Lemma query_observed (this : ptr) (pImpl : Features) (goql_query : string)
    (bbox : BoundingBox) (h : heap) :
  h !! this = Some (FeatureStore_obj pImpl) ->
  observed (query this goql_query bbox h) =
  Some match iteration_failure (selection pImpl goql_query bbox) with
       | Some e => inl (QueryError e)
       | None => inr (spec_record <$> range_items (selection pImpl goql_query bbox))
       end.
Proof.
  intros Hthis. rewrite (query_spec _ _ _ _ _ Hthis).
  destruct (iteration_failure _); simpl; [done|].
  now rewrite lookup_insert_eq.
Qed.

(** C8. Two runs of [query] with the same filter and box, the second on
    any later heap, produce identical result sets whenever the dataset
    behind the handle answers the selection on the second run as it did
    on the first: what the caller sees of either run is the list of the
    records of that selection, in the order the store yields it, or the
    query error of its first failure, and the two are equal.  A run
    leaves the store object as it was, so nothing the bridge does keeps
    the second run from seeing the dataset of the first. *)
Theorem query_twice_identical (this : ptr) (pImpl pImpl' : Features)
    (goql_query : string) (bbox : BoundingBox) (h h' : heap) :
  h !! this = Some (FeatureStore_obj pImpl) ->
  h' !! this = Some (FeatureStore_obj pImpl') ->
  selection pImpl' goql_query bbox = selection pImpl goql_query bbox ->
  fst (query this goql_query bbox h) !! this = Some (FeatureStore_obj pImpl) /\
  observed (query this goql_query bbox h) =
    Some match iteration_failure (selection pImpl goql_query bbox) with
         | Some e => inl (QueryError e)
         | None => inr (spec_record <$> range_items (selection pImpl goql_query bbox))
         end /\
  observed (query this goql_query bbox h') = observed (query this goql_query bbox h).
Proof.
  intros Hthis Hthis' Hsame.
  split; [now apply (query_frame _ pImpl)|].
  rewrite (query_observed _ pImpl) by done.
  rewrite (query_observed _ pImpl') by done.
  split; [done|]. now rewrite Hsame.
Qed.

Lemma query_twice_identical_witness :
  fst (query Sample.store "na[amenity=cafe]" Sample.london Sample.h0) !! Sample.store =
    Some (FeatureStore_obj Sample.dataset) /\
  observed (query Sample.store "na[amenity=cafe]" Sample.london Sample.h0) =
    Some match iteration_failure (selection Sample.dataset "na[amenity=cafe]" Sample.london) with
         | Some e => inl (QueryError e)
         | None =>
             inr (spec_record <$>
                    range_items (selection Sample.dataset "na[amenity=cafe]" Sample.london))
         end /\
  observed (query Sample.store "na[amenity=cafe]" Sample.london
              (fst (query Sample.store "na[amenity=cafe]" Sample.london Sample.h0))) =
  observed (query Sample.store "na[amenity=cafe]" Sample.london Sample.h0).
Proof.
  apply (query_twice_identical Sample.store Sample.dataset Sample.dataset).
  - vm_compute. reflexivity.
  - vm_compute. reflexivity.
  - reflexivity.
Defined.

Lemma destroy_other (h : heap) (p result : ptr) (o : object) :
  p ≠ result -> h !! result = Some o ->
  destroy p h = (delete p h, Returns tt) /\ delete p h !! result = Some o.
Proof. intros Hne Hres. split; [done|]. now rewrite lookup_delete_ne. Qed.

(** C9. Whatever a caller does around a live result set (count, get at
    any index, to_vector, in any order and number, and letting go of
    other objects such as the store handle in between), every read sees
    what the records held at the start answer, and the result set holds
    the same records at the end: the reads depend on nothing else in the
    heap. *)
Theorem reads_see_the_snapshot (steps : list step) (h : heap) (result : ptr)
    (R : FeatureResult) :
  h !! result = Some (FeatureResult_obj R) ->
  keeps result steps = true ->
  exists h' : heap,
    run result steps h = (h', Returns (answer (features R) <$> reads_of steps)) /\
    h' !! result = Some (FeatureResult_obj R).
Proof.
  revert h. induction steps as [|[op|p] steps IH]; intros h Hlive Hkeeps; simpl.
  - now exists h.
  - destruct (observe_live h result R Hlive op) as (h1 & Hobs & Hlive1 & _).
    destruct (IH h1 Hlive1 Hkeeps) as (h2 & Hrun & Hlive2).
    exists h2. split; [|done].
    rewrite (bind_returns _ _ _ _ _ Hobs), (bind_returns _ _ _ _ _ Hrun).
    reflexivity.
  - simpl in Hkeeps. apply andb_prop in Hkeeps as [Hp Hkeeps].
    apply negb_true_iff, Pos.eqb_neq in Hp.
    destruct (destroy_other h p result _ Hp Hlive) as [Hd Hlive1].
    destruct (IH _ Hlive1 Hkeeps) as (h2 & Hrun & Hlive2).
    exists h2. split; [|done].
    now rewrite (bind_returns _ _ _ _ _ Hd).
Qed.

Lemma reads_see_the_snapshot_witness :
  exists h' : heap,
    run Sample.result
      [Read Count; Read (Get 0); Release Sample.store; Read ToList;
       Read (Get 2); Release 3%positive; Read (Get 1); Read Count] Sample.h1 =
    (h', Returns (answer Sample.cafes <$>
                    reads_of [Read Count; Read (Get 0); Release Sample.store;
                              Read ToList; Read (Get 2); Release 3%positive;
                              Read (Get 1); Read Count])) /\
    h' !! Sample.result = Some (FeatureResult_obj {| features := Sample.cafes |}).
Proof.
  apply (reads_see_the_snapshot _ Sample.h1 Sample.result {| features := Sample.cafes |}).
  - vm_compute. reflexivity.
  - vm_compute. reflexivity.
Defined.

(** ** Further properties of the bridge *)

Lemma feature_failure_readable (feature : Feature.t) :
  feature_failure feature = None <-> readable feature.
Proof.
  unfold feature_failure, readable.
  destruct (range_failure (Feature.tags feature)) as [e|].
  - split; [discriminate|]. now intros [? _].
  - destruct (Feature.isWay feature).
    + split; [now intros ->|]. intros [_ H]. now apply H.
    + split; [|done]. intros _. split; [done|discriminate].
Qed.

Lemma iteration_failure_readable (r : range Feature.t) :
  iteration_failure r = None <->
  range_failure r = None /\ Forall readable (range_items r).
Proof.
  induction r as [|feature rest IH|e]; simpl.
  - split; [now split|done].
  - destruct (feature_failure feature) as [e|] eqn:Hf.
    + split; [discriminate|]. intros [_ Hall].
      apply Forall_cons in Hall as [Hr _].
      apply feature_failure_readable in Hr. congruence.
    + apply feature_failure_readable in Hf. rewrite IH.
      split; intros [Hrange Hall]; (split; [done|]).
      * now apply Forall_cons.
      * now apply Forall_cons in Hall as [_ Hall].
  - split; [discriminate|]. now intros [? _].
Qed.

(** X1. When the store yields no feature for the filter and the box,
    the query returns an empty result set: its count is zero, its
    vector is empty, and [get] throws the index error at every index. *)
Theorem query_empty_selection (this : ptr) (pImpl : Features) (goql_query : string)
    (bbox : BoundingBox) (h : heap) :
  h !! this = Some (FeatureStore_obj pImpl) ->
  selection pImpl goql_query bbox = r_end ->
  exists (result : ptr) (h' : heap),
    query this goql_query bbox h = (h', Returns result) /\
    count result h' = (h', Returns 0%nat) /\
    to_vector result h' = (h', Returns []) /\
    forall index : nat, get result index h' = (h', Throws IndexError).
Proof.
  intros Hthis Hsel.
  pose proof (query_spec _ _ goql_query bbox _ Hthis) as Hq.
  rewrite Hsel in Hq. simpl in Hq.
  eexists _, _. split; [exact Hq|].
  assert (Hlive : <[fresh (dom h) := FeatureResult_obj {| features := [] |}]> h
                    !! fresh (dom h) = Some (FeatureResult_obj {| features := [] |}))
    by apply lookup_insert_eq.
  split; [exact (count_live _ _ _ Hlive)|].
  split; [exact (to_vector_live _ _ _ Hlive)|].
  intros index. apply (get_live_out _ _ _ Hlive). simpl. lia.
Qed.

(** X2. [add_feature] appends: on a live result set it leaves the
    records already there at their positions, puts the new record at the
    position of the old count, raises the count by one, and touches no
    other object. *)
Theorem add_feature_appends (h : heap) (result : ptr) (R : FeatureResult)
    (feature : FeatureData.t) :
  h !! result = Some (FeatureResult_obj R) ->
  exists h' : heap,
    add_feature result feature h = (h', Returns tt) /\
    count result h' = (h', Returns (S (List.length (features R)))) /\
    to_vector result h' = (h', Returns (features R ++ [feature])%list) /\
    (forall (i : nat) (d : FeatureData.t),
       features R !! i = Some d ->
       exists p h'', get result i h' = (h'', Returns p) /\
                     h'' !! p = Some (FeatureData_obj d)) /\
    (exists p h'', get result (List.length (features R)) h' = (h'', Returns p) /\
                   h'' !! p = Some (FeatureData_obj feature)) /\
    (forall p : ptr, p ≠ result -> h' !! p = h !! p).
Proof.
  intros Hlive.
  set (R' := {| features := features R ++ [feature] |}).
  exists (<[result := FeatureResult_obj R']> h).
  assert (Hlive' : <[result := FeatureResult_obj R']> h !! result =
                   Some (FeatureResult_obj R')) by apply lookup_insert_eq.
  split.
  { unfold add_feature, this_result, mbind, M_bind, bind, modify. now rewrite Hlive. }
  split.
  { rewrite (count_live _ _ _ Hlive'). unfold R'. simpl. rewrite length_app. simpl.
    do 2 f_equal. lia. }
  split; [exact (to_vector_live _ _ _ Hlive')|].
  split; [|split].
  - intros i d Hd. eexists _, _. split.
    + apply (get_live_in _ _ _ Hlive'). unfold R'. simpl.
      exact (lookup_app_l_Some _ _ _ _ Hd).
    + apply lookup_insert_eq.
  - eexists _, _. split.
    + apply (get_live_in _ _ _ Hlive'). unfold R'. simpl.
      exact (list_lookup_middle _ [] feature _ eq_refl).
    + apply lookup_insert_eq.
  - intros p Hp. now rewrite lookup_insert_ne.
Qed.

(** X3. A query that returns changes the heap in one place: the result
    set sits at an address that was not in use, and every other address
    holds what it held before, the store and earlier result sets
    included. *)
Theorem query_allocates_only_the_result (this : ptr) (goql_query : string)
    (bbox : BoundingBox) (h h' : heap) (result : ptr) :
  query this goql_query bbox h = (h', Returns result) ->
  h !! result = None /\
  (exists R, h' !! result = Some (FeatureResult_obj R)) /\
  (forall p : ptr, p ≠ result -> h' !! p = h !! p) /\
  dom h' = {[result]} ∪ dom h.
Proof.
  intros Hq. apply query_returns in Hq as (pImpl & _ & _ & -> & ->).
  split; [apply fresh_None|].
  split; [eexists; apply lookup_insert_eq|].
  split; [intros p Hp; now rewrite lookup_insert_ne|].
  apply dom_insert_L.
Qed.

Lemma query_empty_selection_witness :
  exists (result : ptr) (h' : heap),
    query Atlas.store "na[amenity=cafe]" Atlas.berlin Atlas.h0 = (h', Returns result) /\
    count result h' = (h', Returns 0%nat) /\
    to_vector result h' = (h', Returns []) /\
    forall index : nat, get result index h' = (h', Throws IndexError).
Proof.
  apply (query_empty_selection Atlas.store Atlas.dataset).
  - vm_compute. reflexivity.
  - vm_compute. reflexivity.
Defined.

Lemma add_feature_appends_witness :
  exists h' : heap,
    add_feature Sample.result (spec_record Sample.unnamed) Sample.h1 = (h', Returns tt) /\
    count Sample.result h' = (h', Returns 3%nat) /\
    to_vector Sample.result h' =
      (h', Returns (Sample.cafes ++ [spec_record Sample.unnamed])%list) /\
    (forall (i : nat) (d : FeatureData.t),
       Sample.cafes !! i = Some d ->
       exists p h'', get Sample.result i h' = (h'', Returns p) /\
                     h'' !! p = Some (FeatureData_obj d)) /\
    (exists p h'', get Sample.result 2 h' = (h'', Returns p) /\
                   h'' !! p = Some (FeatureData_obj (spec_record Sample.unnamed))) /\
    (forall p : ptr, p ≠ Sample.result -> h' !! p = Sample.h1 !! p).
Proof.
  apply (add_feature_appends Sample.h1 Sample.result {| features := Sample.cafes |}).
  vm_compute. reflexivity.
Defined.

Lemma query_allocates_only_the_result_witness :
  Sample.h1 !! 3%positive = None /\
  (exists R, fst (query Sample.store "n" Sample.london Sample.h1) !! 3%positive =
             Some (FeatureResult_obj R)) /\
  (forall p : ptr, p ≠ 3%positive ->
     fst (query Sample.store "n" Sample.london Sample.h1) !! p = Sample.h1 !! p) /\
  dom (fst (query Sample.store "n" Sample.london Sample.h1)) = {[3%positive]} ∪ dom Sample.h1.
Proof.
  apply (query_allocates_only_the_result Sample.store "n" Sample.london Sample.h1).
  vm_compute. reflexivity.
Defined.

Lemma c_str_append_nul (s rest : string) :
  c_str (s +:+ String Ascii.zero rest) = c_str s.
Proof.
  induction s as [|c s IH]; simpl; [reflexivity|].
  now rewrite IH.
Qed.

Lemma string_append_assoc (s t u : string) :
  (s +:+ t) +:+ u = s +:+ (t +:+ u).
Proof.
  induction s as [|c s IH]; [reflexivity|].
  change (String c ((s +:+ t) +:+ u) = String c (s +:+ (t +:+ u))).
  now rewrite IH.
Qed.

(** X4. The filter reaches the store cut at its first NUL character:
    whatever follows a NUL in the filter has no effect on a query, and an
    amenity type with a NUL in it loses the rest of the type and the
    closing bracket of the filter. *)
Theorem filter_cut_at_nul (this : ptr) (goql_query amenity_type rest : string)
    (bbox : BoundingBox) (h : heap) :
  query this (goql_query +:+ String Ascii.zero rest) bbox h =
  query this goql_query bbox h /\
  query_amenities this (amenity_type +:+ String Ascii.zero rest) bbox h =
  query this ("na[amenity=" +:+ amenity_type) bbox h.
Proof.
  split.
  - unfold query. now rewrite c_str_append_nul.
  - unfold query_amenities, query.
    rewrite (string_append_assoc amenity_type).
    change (String Ascii.zero rest +:+ "]") with (String Ascii.zero (rest +:+ "]")).
    rewrite <- (string_append_assoc "na[amenity=" amenity_type).
    now rewrite c_str_append_nul.
Qed.

(** X5. On a live store, a query returns exactly when the range of
    features ends without an exception, the tags of every feature it
    yields do, and the nodes of every way it yields do; the nodes of a
    feature that is not a way are not looked at. *)
Theorem query_returns_iff_readable (this : ptr) (pImpl : Features)
    (goql_query : string) (bbox : BoundingBox) (h : heap) :
  h !! this = Some (FeatureStore_obj pImpl) ->
  (exists (h' : heap) (result : ptr),
     query this goql_query bbox h = (h', Returns result)) <->
  range_failure (selection pImpl goql_query bbox) = None /\
  Forall (fun feature =>
            range_failure (Feature.tags feature) = None /\
            (Feature.isWay feature = true ->
             range_failure (Feature.nodes feature) = None))
         (range_items (selection pImpl goql_query bbox)).
Proof.
  intros Hthis.
  change (Forall _ ?l) with (Forall readable l).
  rewrite <- iteration_failure_readable.
  rewrite (query_spec _ _ _ _ _ Hthis).
  destruct (iteration_failure _) as [e|].
  - split; [|discriminate]. intros (h' & result & Hq). discriminate.
  - split; [done|]. intros _. eauto.
Qed.

Lemma query_returns_iff_readable_witness :
  (exists (h' : heap) (result : ptr),
     query Atlas.store "n[amenity=post_box]" Atlas.berlin Atlas.h0 = (h', Returns result)) <->
  range_failure (selection Atlas.dataset "n[amenity=post_box]" Atlas.berlin) = None /\
  Forall (fun feature =>
            range_failure (Feature.tags feature) = None /\
            (Feature.isWay feature = true ->
             range_failure (Feature.nodes feature) = None))
         (range_items (selection Atlas.dataset "n[amenity=post_box]" Atlas.berlin)).
Proof.
  apply (query_returns_iff_readable Atlas.store Atlas.dataset).
  vm_compute. reflexivity.
Defined.

(** X7. The result of a query has one record per feature the store
    yielded, and the record at position [i] carries the id, the type
    name, the longitude and the latitude of the feature at position
    [i]. *)
Theorem record_scalars_copied (this : ptr) (goql_query : string) (bbox : BoundingBox)
    (h h' : heap) (result : ptr) (R : FeatureResult) :
  query this goql_query bbox h = (h', Returns result) ->
  h' !! result = Some (FeatureResult_obj R) ->
  exists pImpl : Features,
    h !! this = Some (FeatureStore_obj pImpl) /\
    List.length (features R) =
      List.length (range_items (selection pImpl goql_query bbox)) /\
    forall (i : nat) (d : FeatureData.t),
      features R !! i = Some d ->
      exists feature : Feature.t,
        range_items (selection pImpl goql_query bbox) !! i = Some feature /\
        FeatureData.id d = Feature.id feature /\
        FeatureData.type_name d = Feature.typeName feature /\
        FeatureData.lon d = Feature.lon feature /\
        FeatureData.lat d = Feature.lat feature.
Proof.
  intros Hq Hres.
  apply query_returns in Hq as (pImpl & Hthis & _ & _ & ->).
  rewrite lookup_insert_eq in Hres. injection Hres as <-. simpl.
  exists pImpl. split; [done|]. split; [apply length_fmap|].
  intros i d Hd.
  apply list_lookup_fmap_Some in Hd as (feature & -> & Hf).
  now exists feature.
Qed.

Lemma record_scalars_copied_witness :
  exists pImpl : Features,
    Sample.h0 !! Sample.store = Some (FeatureStore_obj pImpl) /\
    List.length Sample.cafes =
      List.length (range_items (selection pImpl "na[amenity=cafe]" Sample.london)) /\
    forall (i : nat) (d : FeatureData.t),
      Sample.cafes !! i = Some d ->
      exists feature : Feature.t,
        range_items (selection pImpl "na[amenity=cafe]" Sample.london) !! i =
          Some feature /\
        FeatureData.id d = Feature.id feature /\
        FeatureData.type_name d = Feature.typeName feature /\
        FeatureData.lon d = Feature.lon feature /\
        FeatureData.lat d = Feature.lat feature.
Proof.
  apply (record_scalars_copied Sample.store "na[amenity=cafe]" Sample.london
           Sample.h0 Sample.h1 Sample.result {| features := Sample.cafes |}).
  - vm_compute. reflexivity.
  - vm_compute. reflexivity.
Defined.

(** X8. Every call of [get] makes a copy of its own: two calls at the
    same index, the first copy still alive, return two different
    objects that hold the same record, and the result set is as it
    was. *)
Theorem get_twice_two_copies (h : heap) (result : ptr) (R : FeatureResult)
    (index : nat) (d : FeatureData.t) :
  h !! result = Some (FeatureResult_obj R) ->
  features R !! index = Some d ->
  exists (p1 p2 : ptr) (h1 h2 : heap),
    get result index h = (h1, Returns p1) /\
    get result index h1 = (h2, Returns p2) /\
    p1 ≠ p2 /\
    h2 !! p1 = Some (FeatureData_obj d) /\
    h2 !! p2 = Some (FeatureData_obj d) /\
    h2 !! result = Some (FeatureResult_obj R).
Proof.
  intros Hlive Hd.
  set (p1 := fresh (dom h)). set (h1 := <[p1 := FeatureData_obj d]> h).
  assert (Hne1 : p1 ≠ result) by (eapply fresh_ne; eassumption).
  assert (Hlive1 : h1 !! result = Some (FeatureResult_obj R)).
  { unfold h1. now rewrite lookup_insert_ne. }
  assert (Hp1 : h1 !! p1 = Some (FeatureData_obj d)) by apply lookup_insert_eq.
  set (p2 := fresh (dom h1)).
  assert (Hne2 : p2 ≠ p1) by (eapply fresh_ne; eassumption).
  assert (Hne3 : p2 ≠ result) by (eapply fresh_ne; eassumption).
  exists p1, p2, h1, (<[p2 := FeatureData_obj d]> h1).
  split; [exact (get_live_in _ _ _ Hlive _ _ Hd)|].
  split; [exact (get_live_in _ _ _ Hlive1 _ _ Hd)|].
  split; [done|].
  split; [now rewrite lookup_insert_ne|].
  split; [apply lookup_insert_eq|now rewrite lookup_insert_ne].
Qed.

Lemma get_twice_two_copies_witness :
  exists (p1 p2 : ptr) (h1 h2 : heap),
    get Sample.result 1 Sample.h1 = (h1, Returns p1) /\
    get Sample.result 1 h1 = (h2, Returns p2) /\
    p1 ≠ p2 /\
    h2 !! p1 = Some (FeatureData_obj (spec_record Sample.kiosk)) /\
    h2 !! p2 = Some (FeatureData_obj (spec_record Sample.kiosk)) /\
    h2 !! Sample.result = Some (FeatureResult_obj {| features := Sample.cafes |}).
Proof.
  apply (get_twice_two_copies Sample.h1 Sample.result {| features := Sample.cafes |} 1).
  - vm_compute. reflexivity.
  - vm_compute. reflexivity.
Defined.

(** X9. [result_to_vec] puts a copy of all the records, in order, into
    a new vector object at an address that was not in use; the result
    set and every other object stay as they were, so the count after
    the call is the count before it. *)
Theorem result_to_vec_copies (h : heap) (result : ptr) (R : FeatureResult) :
  h !! result = Some (FeatureResult_obj R) ->
  exists (p : ptr) (h' : heap),
    result_to_vec result h = (h', Returns p) /\
    h !! p = None /\
    h' !! p = Some (Vector_obj (features R)) /\
    (forall q : ptr, q ≠ p -> h' !! q = h !! q) /\
    result_count result h' = (h', Returns (List.length (features R))).
Proof.
  intros Hlive.
  exists (fresh (dom h)), (<[fresh (dom h) := Vector_obj (features R)]> h).
  assert (Hne : fresh (dom h) ≠ result) by (eapply fresh_ne; eassumption).
  split.
  { unfold result_to_vec. now rewrite (bind_returns _ _ _ _ _ (to_vector_live _ _ _ Hlive)). }
  split; [apply fresh_None|].
  split; [apply lookup_insert_eq|].
  split; [intros q Hq; now rewrite lookup_insert_ne|].
  apply count_live. now rewrite lookup_insert_ne.
Qed.

Lemma result_to_vec_copies_witness :
  exists (p : ptr) (h' : heap),
    result_to_vec Sample.result Sample.h1 = (h', Returns p) /\
    Sample.h1 !! p = None /\
    h' !! p = Some (Vector_obj Sample.cafes) /\
    (forall q : ptr, q ≠ p -> h' !! q = Sample.h1 !! q) /\
    result_count Sample.result h' = (h', Returns 2%nat).
Proof.
  apply (result_to_vec_copies Sample.h1 Sample.result {| features := Sample.cafes |}).
  vm_compute. reflexivity.
Defined.

(** X10. [create_feature_store] passes on the exception of the library
    as it is, without a store object left behind, when the file cannot
    be opened.  When it can, the new store sits at an address that was
    not in use, nothing else changes, and every query through the new
    handle shows the caller the records of the selection in that
    dataset, or the query error of the store's failure, and leaves the
    store in place. *)
Theorem create_then_query (open_gol : string -> exception + Features)
    (gol_path : string) (h : heap) :
  match open_gol (c_str gol_path) with
  | inl e => create_feature_store open_gol gol_path h = (h, Throws e)
  | inr pImpl =>
      exists (store : ptr) (h1 : heap),
        create_feature_store open_gol gol_path h = (h1, Returns store) /\
        h !! store = None /\
        (forall p : ptr, p ≠ store -> h1 !! p = h !! p) /\
        forall (goql_query : string) (bbox : BoundingBox),
          fst (query store goql_query bbox h1) !! store = Some (FeatureStore_obj pImpl) /\
          observed (query store goql_query bbox h1) =
          Some match iteration_failure (selection pImpl goql_query bbox) with
               | Some e => inl (QueryError e)
               | None => inr (spec_record <$> range_items (selection pImpl goql_query bbox))
               end
  end.
Proof.
  unfold create_feature_store.
  destruct (open_gol (c_str gol_path)) as [e|pImpl]; [reflexivity|].
  exists (fresh (dom h)), (<[fresh (dom h) := FeatureStore_obj pImpl]> h).
  assert (Hlive : <[fresh (dom h) := FeatureStore_obj pImpl]> h !! fresh (dom h) =
                  Some (FeatureStore_obj pImpl)) by apply lookup_insert_eq.
  split; [reflexivity|]. split; [apply fresh_None|].
  split; [intros p Hp; now rewrite lookup_insert_ne|].
  intros goql_query bbox.
  split; [now apply (query_frame _ pImpl)|now apply query_observed].
Qed.

Example create_missing_file :
  create_feature_store Atlas.open_gol "paris.gol" ∅ =
  (∅, Throws (Exn Std_runtime_error "file not found")).
Proof. vm_compute. reflexivity. Qed.

Example create_then_query_post_box :
  observed ((store ← create_feature_store Atlas.open_gol "berlin.gol";
             query_with_goql store "n[amenity=post_box]"
               13.25%float 52.25%float 13.75%float 52.75%float) ∅) =
  Some (inr [spec_record Atlas.post_box]).
Proof. vm_compute. reflexivity. Qed.

Example torn_way_fails :
  query Atlas.store "w[highway]" Atlas.berlin Atlas.h0 =
  (Atlas.h0, Throws (Exn Std_runtime_error "Query failed: node index")).
Proof. vm_compute. reflexivity. Qed.

Example second_run_sees_a_changed_dataset :
  observed (query Atlas.store "n" Sample.london Atlas.h0) ≠
  observed (query Sample.store "n" Sample.london Sample.h0).
Proof. vm_compute. discriminate. Qed.
